(** * httpApiClient: a typed HTTP client over an axios transport

    Shallow embedding of [src/api/common/httpApiClient.ts]: the normalized
    error class [AxiosHttpApiErrorImpl], the adapter [AxiosHttpApiClientImpl]
    with its six request operations, the interceptors it installs, and the
    factory [createHttpApiClient].

    Promises are modelled by the state they settle in, the transport by an
    explicit world (what the network answers, which requests were issued,
    how many transport instances exist) threaded through a small state
    monad. *)

From Stdlib Require Import String Ascii List ZArith Bool Lia.
Import ListNotations.
Open Scope string_scope.
Open Scope Z_scope.

(** ** JavaScript values used by the module *)

Module Js.

(** [if (s)] on a string: the empty string is falsy. *)
Definition truthy (s : string) : bool :=
  match s with
  | EmptyString => false
  | String _ _ => true
  end.

(** [if (v)] on a value of type [string | undefined]. *)
Definition truthyOpt (v : option string) : bool :=
  match v with
  | Some s => truthy s
  | None => false
  end.

(** [v == n] where [v : number | undefined] and [n] is a number literal:
    [undefined == n] is [false], it does not throw. *)
Definition looseEq (v : option Z) (n : Z) : bool :=
  match v with
  | Some z => Z.eqb z n
  | None => false
  end.

(** [v === n] on the same types. *)
Definition strictEq (v : option Z) (n : Z) : Prop := v = Some n.

(** A plain [Error] object. *)
Record Error : Type := mkError {
  error_name : string;
  error_message : string
}.

End Js.

(** ** Constants *)

Definition serverUrl : string := "https://api.trend.kimhwan.kr".
Definition apiBaseUrl : string := serverUrl ++ "/api/".

(** ** Request side of the data model *)

Definition Blob : Type := list Byte.byte.

(** A [FormData] body: the entries in the order they were appended;
    duplicates of a key are kept. *)
Definition FormData : Type := list (string * Blob).

Definition FormData_append (form : FormData) (name : string) (file : Blob)
  : FormData :=
  (form ++ [(name, file)])%list.

(** [params] and [headers] are typed [any] in the source and only passed
    on: an optional mapping, kept as the list of its entries. *)
Definition Mapping : Type := option (list (string * string)).

Inductive Method : Type := GET | DELETE | POST | PUT | PATCH.


(** The transfer objects exchanged with the backend: [DataTransferObject]
    is declared outside this file and the client imposes no shape on it,
    so a payload is any deserialized JSON value. *)
Unset Elimination Schemes.
Inductive Json : Type :=
| JNull
| JBool (b : bool)
| JNumber (n : Z)
| JString (s : string)
| JArray (items : list Json)
| JObject (fields : list (string * Json)).
Set Elimination Schemes.

Definition DataTransferObject : Type := Json.

(** The [data] slot of a request: omitted, an explicit [null], a transfer
    object, or a multipart form. *)
Inductive RequestData : Type :=
| DataUndefined
| DataNull
| DataModel (requestModel : DataTransferObject)
| DataForm (form : FormData).

(** [AxiosRequestConfig], with the [retryCount] that
    [CustomAxiosRequestConfig] adds to it. *)
Record AxiosRequestConfig : Type := mkConfig {
  cfg_baseURL : option string;
  cfg_url : option string;
  cfg_method : option Method;
  cfg_params : Mapping;
  cfg_headers : Mapping;
  cfg_data : RequestData;
  retryCount : option nat
}.

Record AxiosResponse (D : Type) : Type := mkResponse {
  res_data : D;
  res_status : Z;
  res_statusText : string;
  res_config : option AxiosRequestConfig
}.
Arguments mkResponse {D}.
Arguments res_data {D}.
Arguments res_status {D}.
Arguments res_statusText {D}.
Arguments res_config {D}.

(** Modelled from the spec: [ErrorResponseDto] is declared in
    [models/common.dtos]; the server contract is [{ name, message }].
    The code reads both fields through [?.], so either may be missing. *)
Record ErrorResponseDto : Type := mkErrorDto {
  dto_name : option string;
  dto_message : option string
}.

(** [AxiosError<ErrorResponseDto>]; [new AxiosError(message)] sets only
    the message. *)
Record AxiosError : Type := mkAxiosError {
  ax_message : string;
  ax_code : option string;
  ax_config : option AxiosRequestConfig;
  ax_response : option (AxiosResponse (option ErrorResponseDto))
}.

Definition AxiosError_new (message : string) : AxiosError :=
  {| ax_message := message;
     ax_code := None;
     ax_config := None;
     ax_response := None |}.

(** ** The normalized error *)

Record AxiosHttpApiErrorImpl : Type := mkHttpApiError {
  statusCode : option Z;
  statusText : option string;
  serverErrorCode : option string;
  serverErrorMessage : option string;
  message : string;
  name : string;
  config : option AxiosRequestConfig
}.

(** [e?.f] and [e?.f?.g]. *)
Definition chain {A B : Type} (o : option A) (f : A -> B) : option B :=
  match o with
  | Some a => Some (f a)
  | None => None
  end.

Definition chainOpt {A B : Type} (o : option A) (f : A -> option B)
  : option B :=
  match o with
  | Some a => f a
  | None => None
  end.

(** The constructor of [AxiosHttpApiErrorImpl]. *)
Definition AxiosHttpApiErrorImpl_new (error : AxiosError)
  : AxiosHttpApiErrorImpl :=
  {| statusCode := chain (ax_response error) res_status;
     statusText := chain (ax_response error) res_statusText;
     serverErrorCode :=
       chainOpt (chainOpt (ax_response error) res_data) dto_name;
     serverErrorMessage :=
       chainOpt (chainOpt (ax_response error) res_data) dto_message;
     name := "HttpApiError";
     message := ax_message error;
     config := ax_config error |}.

Definition defaultErrorMessage : string :=
  "서비스에 일시적인 문제가 있습니다. 다시 시도해 보세요.".

(** [getErrorMessage(defaultErrorMessage = ...)]: the argument is [None]
    when the caller omits it. *)
Definition getErrorMessage (this : AxiosHttpApiErrorImpl)
    (arg : option string) : string :=
  let fallback :=
    match arg with
    | Some s => s
    | None => defaultErrorMessage
    end in
  if Js.truthyOpt (serverErrorMessage this) then
    match serverErrorMessage this with
    | Some s => s
    | None => fallback
    end
  else if Js.truthy (message this) then message this
  else fallback.

Definition isUnauthorized (this : AxiosHttpApiErrorImpl) : bool :=
  Js.looseEq (statusCode this) 401.

Definition isForbidden (this : AxiosHttpApiErrorImpl) : bool :=
  Js.looseEq (statusCode this) 403.

Definition isNotFound (this : AxiosHttpApiErrorImpl) : bool :=
  Js.looseEq (statusCode this) 404.

Definition isConflict (this : AxiosHttpApiErrorImpl) : bool :=
  Js.looseEq (statusCode this) 409.


(** The exported interface [HttpApiError]: what a caller can ask of a
    rejection. *)
Class HttpApiError (E : Type) : Type := {
  err_statusCode : E -> option Z;
  err_statusText : E -> option string;
  err_serverErrorCode : E -> option string;
  err_serverErrorMessage : E -> option string;
  err_getErrorMessage : E -> option string -> string;
  err_isNotFound : E -> bool;
  err_isConflict : E -> bool;
  err_isUnauthorized : E -> bool;
  err_isForbidden : E -> bool
}.

#[export]
Instance AxiosHttpApiErrorImpl_implements
  : HttpApiError AxiosHttpApiErrorImpl := {
  err_statusCode := statusCode;
  err_statusText := statusText;
  err_serverErrorCode := serverErrorCode;
  err_serverErrorMessage := serverErrorMessage;
  err_getErrorMessage := getErrorMessage;
  err_isNotFound := isNotFound;
  err_isConflict := isConflict;
  err_isUnauthorized := isUnauthorized;
  err_isForbidden := isForbidden
}.

(** [getCustomAxiosRequestConfig]: [retryCount ??= 0] on the stored
    configuration, which is then returned. The assignment is made on the
    object the error holds, so the error is returned with it; reading a
    property of an [undefined] configuration raises a [TypeError]. *)
Definition getCustomAxiosRequestConfig (this : AxiosHttpApiErrorImpl)
  : Js.Error + (AxiosHttpApiErrorImpl * AxiosRequestConfig) :=
  match config this with
  | None =>
      inl (Js.mkError "TypeError" "Cannot read properties of undefined")
  | Some c =>
      let requestConfig :=
        {| cfg_baseURL := cfg_baseURL c;
           cfg_url := cfg_url c;
           cfg_method := cfg_method c;
           cfg_params := cfg_params c;
           cfg_headers := cfg_headers c;
           cfg_data := cfg_data c;
           retryCount :=
             match retryCount c with
             | Some n => Some n
             | None => Some 0%nat
             end |} in
      inr ({| statusCode := statusCode this;
              statusText := statusText this;
              serverErrorCode := serverErrorCode this;
              serverErrorMessage := serverErrorMessage this;
              message := message this;
              name := name this;
              config := Some requestConfig |},
           requestConfig)
  end.

(** ** Promises *)

(** What a promise can be rejected with in this module: a plain [Error],
    the transport's [AxiosError], or the normalized error. *)
Inductive Thrown : Type :=
| ThrownError (e : Js.Error)
| ThrownAxiosError (e : AxiosError)
| ThrownHttpApiError (e : AxiosHttpApiErrorImpl).

(** A promise, by the state it settles in; [Pending] is a promise that
    never settles. *)
Inductive Promise (A : Type) : Type :=
| Fulfilled (value : A)
| Rejected (reason : Thrown)
| Pending.
Arguments Fulfilled {A}.
Arguments Rejected {A}.
Arguments Pending {A}.

Module PromiseOps.

(** [Promise.reject(e)]. *)
Definition reject {A : Type} (e : Thrown) : Promise A := Rejected e.

(** [p.then(onFulfilled, onRejected)] with handlers that return
    promises. *)
Definition then2 {A B : Type} (p : Promise A)
    (onFulfilled : A -> Promise B) (onRejected : Thrown -> Promise B)
  : Promise B :=
  match p with
  | Fulfilled a => onFulfilled a
  | Rejected e => onRejected e
  | Pending => Pending
  end.

(** [p.then(onFulfilled)]: a rejection passes through. *)
Definition then1 {A B : Type} (p : Promise A)
    (onFulfilled : A -> Promise B) : Promise B :=
  then2 p onFulfilled Rejected.

(** [p.catch(onRejected)]: a value passes through. *)
Definition catch {A : Type} (p : Promise A)
    (onRejected : Thrown -> Promise A) : Promise A :=
  then2 p Fulfilled onRejected.

End PromiseOps.

(** The [message] property of whatever was thrown. *)
Definition Thrown_message (error : Thrown) : string :=
  match error with
  | ThrownError e => Js.error_message e
  | ThrownAxiosError e => ax_message e
  | ThrownHttpApiError e => message e
  end.

(** [new Promise((resolve, reject) => ...)]: the executor is handed the two
    settling functions; each yields the state it puts the new promise in.
    A chain inside the executor that never calls either leaves the new
    promise pending. *)
Definition Promise_new {A : Type}
    (executor : (A -> Promise (Promise A)) ->
                (Thrown -> Promise (Promise A)) -> Promise (Promise A))
  : Promise A :=
  match executor (fun a => Fulfilled (Fulfilled a))
                 (fun e => Fulfilled (Rejected e)) with
  | Fulfilled settled => settled
  | Rejected _ => Pending
  | Pending => Pending
  end.

(** ** The transport *)

(** The world the client runs in: how a request handed to the transport
    ends (given the requests handed to it before) -- with a response, with
    a failure of the transport, with an error raised while the request was
    being set up, or never --, the requests handed to the transport so far,
    and the number of transport instances created. *)
Record World : Type := mkWorld {
  network :
    list AxiosRequestConfig -> AxiosRequestConfig ->
    Promise (AxiosResponse Json);
  issued : list AxiosRequestConfig;
  instances : nat
}.

Definition Transport (A : Type) : Type := World -> A * World.

Definition ret {A : Type} (a : A) : Transport A := fun w => (a, w).

Definition bind {A B : Type} (m : Transport A) (k : A -> Transport B)
  : Transport B :=
  fun w => let (a, w') := m w in k a w'.

Declare Scope transport_scope.
Delimit Scope transport_scope with transport.
Notation "x <- m ;; k" := (bind m (fun x => k))
  (at level 61, m at next level, right associativity) : transport_scope.

Definition orElse {A : Type} (o fallback : option A) : option A :=
  match o with
  | Some a => Some a
  | None => fallback
  end.

Module Axios.

Record Interceptor (V : Type) : Type := mkInterceptor {
  onFulfilled : V -> Promise V;
  onRejected : Thrown -> Promise V
}.
Arguments mkInterceptor {V}.
Arguments onFulfilled {V}.
Arguments onRejected {V}.

Record AxiosInstance : Type := mkInstance {
  defaults : AxiosRequestConfig;
  requestInterceptors : list (Interceptor AxiosRequestConfig);
  responseInterceptors : list (Interceptor (AxiosResponse Json))
}.

(** [axios.create({ baseURL })]: one more transport instance, without
    interceptors. *)
Definition create (baseURL : string) : Transport AxiosInstance :=
  fun w =>
    ({| defaults :=
          {| cfg_baseURL := Some baseURL; cfg_url := None;
             cfg_method := None; cfg_params := None; cfg_headers := None;
             cfg_data := DataUndefined; retryCount := None |};
        requestInterceptors := [];
        responseInterceptors := [] |},
     {| network := network w;
        issued := issued w;
        instances := S (instances w) |}).

(** [instance.interceptors.request.use(f, r)]. *)
Definition useRequest (instance : AxiosInstance)
    (f : AxiosRequestConfig -> Promise AxiosRequestConfig)
    (r : Thrown -> Promise AxiosRequestConfig) : AxiosInstance :=
  {| defaults := defaults instance;
     requestInterceptors :=
       (requestInterceptors instance ++ [mkInterceptor f r])%list;
     responseInterceptors := responseInterceptors instance |}.

(** [instance.interceptors.response.use(f, r)]. *)
Definition useResponse (instance : AxiosInstance)
    (f : AxiosResponse Json -> Promise (AxiosResponse Json))
    (r : Thrown -> Promise (AxiosResponse Json)) : AxiosInstance :=
  {| defaults := defaults instance;
     requestInterceptors := requestInterceptors instance;
     responseInterceptors :=
       (responseInterceptors instance ++ [mkInterceptor f r])%list |}.

(** [axios.isAxiosError(error)] is a type guard: where it holds, the
    value is used as an [AxiosError]. *)
Definition asAxiosError (error : Thrown) : option AxiosError :=
  match error with
  | ThrownAxiosError e => Some e
  | _ => None
  end.

Definition isAxiosError (error : Thrown) : bool :=
  match asAxiosError error with
  | Some _ => true
  | None => false
  end.

(** The configuration of a call over the instance's defaults: [url],
    [method] and [data] come from the call alone. *)
Definition mergeConfig (config1 config2 : AxiosRequestConfig)
  : AxiosRequestConfig :=
  {| cfg_baseURL := orElse (cfg_baseURL config2) (cfg_baseURL config1);
     cfg_url := cfg_url config2;
     cfg_method := cfg_method config2;
     cfg_params := orElse (cfg_params config2) (cfg_params config1);
     cfg_headers := orElse (cfg_headers config2) (cfg_headers config1);
     cfg_data := cfg_data config2;
     retryCount := orElse (retryCount config2) (retryCount config1) |}.

(** Hands the request to the network and records it as issued. *)
Definition dispatchRequest (config : AxiosRequestConfig)
  : Transport (Promise (AxiosResponse Json)) :=
  fun w =>
    (network w (issued w) config,
     {| network := network w;
        issued := (issued w ++ [config])%list;
        instances := instances w |}).

Definition through {V : Type} (chain : list (Interceptor V))
    (p : Promise V) : Promise V :=
  fold_left
    (fun acc i => PromiseOps.then2 acc (onFulfilled i) (onRejected i))
    chain p.

(** [instance.request(config)], from the point where it has a promise
    chain: the request interceptors (last registered first), the dispatch
    when they let the configuration through, then the response
    interceptors. What the library does before that point, outside any
    promise (it copies the configuration of the call, and throws if it
    cannot), is not part of this definition: a call that ends there returns
    no promise at all, and nothing below speaks of it. *)
Definition request (instance : AxiosInstance) (config : AxiosRequestConfig)
  : Transport (Promise (AxiosResponse Json)) :=
  let merged := mergeConfig (defaults instance) config in
  match through (rev (requestInterceptors instance)) (Fulfilled merged) with
  | Fulfilled ready =>
      (response <- dispatchRequest ready ;;
       ret (through (responseInterceptors instance) response))%transport
  | Rejected e =>
      ret (through (responseInterceptors instance) (Rejected e))
  | Pending => ret Pending
  end.

(** [instance.get(url, config)], [instance.delete(url, config)]. *)
Definition withoutData (method : Method) (instance : AxiosInstance)
    (url : string) (config : AxiosRequestConfig)
  : Transport (Promise (AxiosResponse Json)) :=
  request instance
    {| cfg_baseURL := cfg_baseURL config; cfg_url := Some url;
       cfg_method := Some method; cfg_params := cfg_params config;
       cfg_headers := cfg_headers config; cfg_data := cfg_data config;
       retryCount := retryCount config |}.

(** [instance.post(url, data, config)] and its siblings. *)
Definition withData (method : Method) (instance : AxiosInstance)
    (url : string) (data : RequestData) (config : AxiosRequestConfig)
  : Transport (Promise (AxiosResponse Json)) :=
  request instance
    {| cfg_baseURL := cfg_baseURL config; cfg_url := Some url;
       cfg_method := Some method; cfg_params := cfg_params config;
       cfg_headers := cfg_headers config; cfg_data := data;
       retryCount := retryCount config |}.

Definition get := withoutData GET.
Definition delete := withoutData DELETE.
Definition post := withData POST.
Definition put := withData PUT.
Definition patch := withData PATCH.

End Axios.

(** How the transport forms the address of a request from [baseURL] and
    the call's [url]: axios' [buildFullPath], [isAbsoluteURL] and
    [combineURLs], which belong to the library, not to this repository. *)
Module Url.













End Url.

(** ** The client *)

(** [AxiosHttpApiClientImpl]: the transport instance it owns. *)
Record AxiosHttpApiClientImpl : Type := mkClient {
  instance : Axios.AxiosInstance
}.

Definition buildAxiosRequestConfig (params headers : Mapping)
  : AxiosRequestConfig :=
  {| cfg_baseURL := None; cfg_url := None; cfg_method := None;
     cfg_params := params; cfg_headers := headers;
     cfg_data := DataUndefined; retryCount := None |}.

Definition createHttpApiResponse (response : Promise (AxiosResponse Json))
  : Promise Json :=
  Promise_new (fun resolve reject =>
    PromiseOps.catch
      (PromiseOps.then1 response (fun response => resolve (res_data response)))
      (fun error => reject error)).

(** The handlers [setInterceptors] registers. *)
Definition requestFulfilled (config : AxiosRequestConfig)
  : Promise AxiosRequestConfig :=
  Fulfilled config.

Definition requestRejected (error : Thrown) : Promise AxiosRequestConfig :=
  PromiseOps.reject error.

Definition responseFulfilled (response : AxiosResponse Json)
  : Promise (AxiosResponse Json) :=
  Fulfilled response.

Definition responseRejected (error : Thrown) : Promise (AxiosResponse Json) :=
  let httpApiError :=
    AxiosHttpApiErrorImpl_new
      match Axios.asAxiosError error with
      | Some error => error
      | None => AxiosError_new (Thrown_message error)
      end in
  PromiseOps.reject (ThrownHttpApiError httpApiError).

Definition setInterceptors (instance : Axios.AxiosInstance)
  : Axios.AxiosInstance :=
  let instance := Axios.useRequest instance requestFulfilled requestRejected in
  let instance :=
    Axios.useResponse instance responseFulfilled responseRejected in
  instance.

(** The constructor of [AxiosHttpApiClientImpl]. *)
Definition AxiosHttpApiClientImpl_new (uri : string)
  : Transport AxiosHttpApiClientImpl :=
  (instance <- Axios.create (apiBaseUrl ++ uri) ;;
   ret {| instance := setInterceptors instance |})%transport.

Definition createHttpApiClient (uri : string)
  : Transport AxiosHttpApiClientImpl :=
  AxiosHttpApiClientImpl_new uri.

(** A request model is a transfer object, [null], or omitted. *)
Inductive Body : Type :=
| BodyOmitted
| BodyNull
| BodyModel (requestModel : DataTransferObject).

Definition bodyData (b : Body) : RequestData :=
  match b with
  | BodyOmitted => DataUndefined
  | BodyNull => DataNull
  | BodyModel m => DataModel m
  end.

Definition getRequest (this : AxiosHttpApiClientImpl) (uri : string)
    (params headers : Mapping) : Transport (Promise Json) :=
  (response <- Axios.get (instance this) uri
                 (buildAxiosRequestConfig params headers) ;;
   ret (createHttpApiResponse response))%transport.

Definition deleteRequest (this : AxiosHttpApiClientImpl) (uri : string)
    (params headers : Mapping) : Transport (Promise Json) :=
  (response <- Axios.delete (instance this) uri
                 (buildAxiosRequestConfig params headers) ;;
   ret (createHttpApiResponse response))%transport.

Definition patchRequest (this : AxiosHttpApiClientImpl) (uri : string)
    (params : Mapping) (requestModel : Body) (headers : Mapping)
  : Transport (Promise Json) :=
  (response <- Axios.patch (instance this) uri (bodyData requestModel)
                 (buildAxiosRequestConfig params headers) ;;
   ret (createHttpApiResponse response))%transport.

Definition postRequest (this : AxiosHttpApiClientImpl) (uri : string)
    (params : Mapping) (requestModel : Body) (headers : Mapping)
  : Transport (Promise Json) :=
  (response <- Axios.post (instance this) uri (bodyData requestModel)
                 (buildAxiosRequestConfig params headers) ;;
   ret (createHttpApiResponse response))%transport.

Definition putRequest (this : AxiosHttpApiClientImpl) (uri : string)
    (params : Mapping) (requestModel : Body) (headers : Mapping)
  : Transport (Promise Json) :=
  (response <- Axios.put (instance this) uri (bodyData requestModel)
                 (buildAxiosRequestConfig params headers) ;;
   ret (createHttpApiResponse response))%transport.

(** [files.forEach((file) => form.append(name, file))] on a fresh form. *)
Definition appendFiles (name : string) (files : list Blob) : FormData :=
  fold_left (fun form file => FormData_append form name file) files [].

Definition uploadFileRequest (this : AxiosHttpApiClientImpl) (uri : string)
    (name : string) (files : list Blob) (params headers : Mapping)
  : Transport (Promise Json) :=
  let form := appendFiles name files in
  (response <- Axios.post (instance this) uri (DataForm form)
                 (buildAxiosRequestConfig params headers) ;;
   ret (createHttpApiResponse response))%transport.

(** The exported interface [HttpApiClient]. *)
Class HttpApiClient (C : Type) : Type := {
  api_getRequest :
    C -> string -> Mapping -> Mapping -> Transport (Promise Json);
  api_deleteRequest :
    C -> string -> Mapping -> Mapping -> Transport (Promise Json);
  api_postRequest :
    C -> string -> Mapping -> Body -> Mapping ->
    Transport (Promise Json);
  api_putRequest :
    C -> string -> Mapping -> Body -> Mapping ->
    Transport (Promise Json);
  api_patchRequest :
    C -> string -> Mapping -> Body -> Mapping ->
    Transport (Promise Json);
  api_uploadFileRequest :
    C -> string -> string -> list Blob -> Mapping -> Mapping ->
    Transport (Promise Json)
}.

#[export]
Instance AxiosHttpApiClientImpl_implements
  : HttpApiClient AxiosHttpApiClientImpl := {
  api_getRequest := getRequest;
  api_deleteRequest := deleteRequest;
  api_postRequest := postRequest;
  api_putRequest := putRequest;
  api_patchRequest := patchRequest;
  api_uploadFileRequest := uploadFileRequest
}.

(** One invocation of an operation of the interface, with its arguments. *)
Inductive Call : Type :=
| CallGet (uri : string) (params headers : Mapping)
| CallDelete (uri : string) (params headers : Mapping)
| CallPost (uri : string) (params : Mapping) (requestModel : Body)
    (headers : Mapping)
| CallPut (uri : string) (params : Mapping) (requestModel : Body)
    (headers : Mapping)
| CallPatch (uri : string) (params : Mapping) (requestModel : Body)
    (headers : Mapping)
| CallUpload (uri : string) (name : string) (files : list Blob)
    (params headers : Mapping).

Definition invoke {C : Type} `{HttpApiClient C} (client : C) (call : Call)
  : Transport (Promise Json) :=
  match call with
  | CallGet uri params headers => api_getRequest client uri params headers
  | CallDelete uri params headers =>
      api_deleteRequest client uri params headers
  | CallPost uri params requestModel headers =>
      api_postRequest client uri params requestModel headers
  | CallPut uri params requestModel headers =>
      api_putRequest client uri params requestModel headers
  | CallPatch uri params requestModel headers =>
      api_patchRequest client uri params requestModel headers
  | CallUpload uri name files params headers =>
      api_uploadFileRequest client uri name files params headers
  end.

(** The client the factory returns for [resourcePath] in world [w0]. *)
Definition clientFor (resourcePath : string) (w0 : World)
  : AxiosHttpApiClientImpl :=
  fst (createHttpApiClient resourcePath w0).

(** ** What the operations are compared with *)

Definition callUri (call : Call) : string :=
  match call with
  | CallGet uri _ _ | CallDelete uri _ _ | CallPost uri _ _ _
  | CallPut uri _ _ _ | CallPatch uri _ _ _ | CallUpload uri _ _ _ _ => uri
  end.

Definition callMethod (call : Call) : Method :=
  match call with
  | CallGet _ _ _ => GET
  | CallDelete _ _ _ => DELETE
  | CallPost _ _ _ _ => POST
  | CallPut _ _ _ _ => PUT
  | CallPatch _ _ _ _ => PATCH
  | CallUpload _ _ _ _ _ => POST
  end.

Definition callParams (call : Call) : Mapping :=
  match call with
  | CallGet _ params _ | CallDelete _ params _ | CallPost _ params _ _
  | CallPut _ params _ _ | CallPatch _ params _ _
  | CallUpload _ _ _ params _ => params
  end.

Definition callHeaders (call : Call) : Mapping :=
  match call with
  | CallGet _ _ headers | CallDelete _ _ headers | CallPost _ _ _ headers
  | CallPut _ _ _ headers | CallPatch _ _ _ headers
  | CallUpload _ _ _ _ headers => headers
  end.

Definition callData (call : Call) : RequestData :=
  match call with
  | CallGet _ _ _ | CallDelete _ _ _ => DataUndefined
  | CallPost _ _ requestModel _ | CallPut _ _ requestModel _
  | CallPatch _ _ requestModel _ => bodyData requestModel
  | CallUpload _ name files _ _ =>
      DataForm (List.map (fun file => (name, file)) files)
  end.

(** The one request a call is expected to hand to the transport, for a
    client made for [resourcePath]. *)
Definition expectedRequest (resourcePath : string) (call : Call)
  : AxiosRequestConfig :=
  {| cfg_baseURL := Some (apiBaseUrl ++ resourcePath);
     cfg_url := Some (callUri call);
     cfg_method := Some (callMethod call);
     cfg_params := callParams call;
     cfg_headers := callHeaders call;
     cfg_data := callData call;
     retryCount := None |}.

(** The response a failure carries, if any. *)
Definition Thrown_response (error : Thrown)
  : option (AxiosResponse (option ErrorResponseDto)) :=
  match error with
  | ThrownAxiosError e => ax_response e
  | _ => None
  end.

(** The request configuration a failure carries, if any. *)
Definition Thrown_config (error : Thrown) : option AxiosRequestConfig :=
  match error with
  | ThrownAxiosError e => ax_config e
  | ThrownError _ => None
  | ThrownHttpApiError _ => None
  end.

(** A failure as the transport or the request setup raises it: not yet a
    normalized error. *)
Definition isRawFailure (error : Thrown) : bool :=
  match error with
  | ThrownError _ | ThrownAxiosError _ => true
  | ThrownHttpApiError _ => false
  end.

(** The normalized error the specification describes for a failure:
    status from the response it carries, server code and message from that
    response's body, the failure's own message, the fixed name. *)
Definition normalizedError (raw : Thrown) : AxiosHttpApiErrorImpl :=
  {| statusCode := chain (Thrown_response raw) res_status;
     statusText := chain (Thrown_response raw) res_statusText;
     serverErrorCode :=
       chainOpt (chainOpt (Thrown_response raw) res_data) dto_name;
     serverErrorMessage :=
       chainOpt (chainOpt (Thrown_response raw) res_data) dto_message;
     message := Thrown_message raw;
     name := "HttpApiError";
     config := Thrown_config raw |}.

(** What the caller's promise is expected to settle in, given what the
    network answered. *)
Definition expectedOutcome (answer : Promise (AxiosResponse Json))
  : Promise Json :=
  match answer with
  | Fulfilled response => Fulfilled (res_data response)
  | Rejected raw => Rejected (ThrownHttpApiError (normalizedError raw))
  | Pending => Pending
  end.

Definition recordIssued (w : World) (config : AxiosRequestConfig) : World :=
  {| network := network w;
     issued := (issued w ++ [config])%list;
     instances := instances w |}.

(** ** Sample data: the scenarios of the specification *)

Module Samples.

Definition user1 : Json :=
  JObject [("id", JNumber 1); ("name", JString "A")].

Definition notFound : AxiosError :=
  {| ax_message := "Request failed with status code 404";
     ax_code := Some "ERR_BAD_REQUEST";
     ax_config := None;
     ax_response :=
       Some {| res_data :=
                 Some {| dto_name := Some "NotFound";
                         dto_message := Some "no such user" |};
               res_status := 404;
               res_statusText := "Not Found";
               res_config := None |} |}.

Definition networkError : AxiosError :=
  {| ax_message := "Network Error";
     ax_code := Some "ERR_NETWORK";
     ax_config := None;
     ax_response := None |}.

(** A server error whose body carries an empty [message]. *)
Definition emptyServerMessage : AxiosError :=
  {| ax_message := "Request failed with status code 500";
     ax_code := Some "ERR_BAD_RESPONSE";
     ax_config := None;
     ax_response :=
       Some {| res_data :=
                 Some {| dto_name := Some "InternalServerError";
                         dto_message := Some "" |};
               res_status := 500;
               res_statusText := "Internal Server Error";
               res_config := None |} |}.

(** A transport failure without response and with an empty message. *)
Definition silentFailure : AxiosError :=
  {| ax_message := "";
     ax_code := None;
     ax_config := None;
     ax_response := None |}.

Definition setupFailure : Js.Error :=
  Js.mkError "TypeError" "Converting circular structure to JSON".

Definition urlIs (config : AxiosRequestConfig) (u : string) : bool :=
  match cfg_url config with
  | Some url => String.eqb url u
  | None => false
  end.

(** GET [/users/1] answers 200 with a user, GET of anything else 404;
    POST meets a network failure; PUT fails while the request is set up;
    PATCH meets a failure without response and without message; DELETE
    never settles. *)
Definition scenarioNetwork (history : list AxiosRequestConfig)
    (config : AxiosRequestConfig) : Promise (AxiosResponse Json) :=
  match cfg_method config with
  | Some GET =>
      if urlIs config "/users/1" then
        Fulfilled {| res_data := user1; res_status := 200;
                     res_statusText := "OK"; res_config := Some config |}
      else Rejected (ThrownAxiosError notFound)
  | Some POST => Rejected (ThrownAxiosError networkError)
  | Some PUT => Rejected (ThrownError setupFailure)
  | Some PATCH => Rejected (ThrownAxiosError silentFailure)
  | _ => Pending
  end.

Definition world0 : World :=
  {| network := scenarioNetwork; issued := []; instances := 0 |}.

Definition usersClient : AxiosHttpApiClientImpl :=
  fst (createHttpApiClient "users" world0).

Definition world1 : World := snd (createHttpApiClient "users" world0).

Definition blobA : Blob := [Byte.x01; Byte.x02].
Definition blobB : Blob := [Byte.xff].

(** A network on which every request fails without response. *)
Definition offlineNetwork (history : list AxiosRequestConfig)
    (config : AxiosRequestConfig) : Promise (AxiosResponse Json) :=
  Rejected (ThrownAxiosError networkError).

Definition offlineWorld : World :=
  {| network := offlineNetwork; issued := []; instances := 1 |}.

(** A client over a transport instance on which no interceptor was
    registered. *)
Definition bareClient : AxiosHttpApiClientImpl :=
  {| instance :=
       {| Axios.defaults :=
            {| cfg_baseURL := Some "https://api.trend.kimhwan.kr/api/users";
               cfg_url := None; cfg_method := None; cfg_params := None;
               cfg_headers := None; cfg_data := DataUndefined;
               retryCount := None |};
          Axios.requestInterceptors := [];
          Axios.responseInterceptors := [] |} |}.

(** A timeout as the transport reports it, with the configuration of the
    request that timed out. *)
Definition timedOut : AxiosError :=
  {| ax_message := "timeout of 1000ms exceeded";
     ax_code := Some "ECONNABORTED";
     ax_config :=
       Some (expectedRequest "users" (CallGet "/users/1" None None));
     ax_response := None |}.

End Samples.

(** ** Several calls in a row *)

(** A caller that invokes the operations of [calls] one after the other on
    the same client and collects the promises. *)
Fixpoint invokeAll {C : Type} `{HttpApiClient C} (client : C)
    (calls : list Call) : Transport (list (Promise Json)) :=
  match calls with
  | [] => ret []
  | call :: rest =>
      (promise <- invoke client call ;;
       promises <- invokeAll client rest ;;
       ret (promise :: promises))%transport
  end.

(** ** The scenarios, run *)

Example scenario_get_user :
  fst (getRequest Samples.usersClient "/users/1" None None Samples.world1)
  = Fulfilled Samples.user1.
Proof. reflexivity. Qed.

Example scenario_get_missing_user :
  exists e,
    fst (getRequest Samples.usersClient "/users/999" None None Samples.world1)
    = Rejected (ThrownHttpApiError e)
    /\ isNotFound e = true
    /\ getErrorMessage e None = "no such user".
Proof. eexists. split; [reflexivity | split; reflexivity]. Qed.

Example scenario_post_offline :
  exists e,
    fst (postRequest Samples.usersClient "/users" None BodyNull None
           Samples.world1)
    = Rejected (ThrownHttpApiError e)
    /\ statusCode e = None
    /\ getErrorMessage e (Some "fallback") = "Network Error".
Proof. eexists. split; [reflexivity | split; reflexivity]. Qed.

Example scenario_upload_two_blobs :
  issued
    (snd (uploadFileRequest Samples.usersClient "/avatars" "files"
            [Samples.blobA; Samples.blobB] None None Samples.world1))
  = [ {| cfg_baseURL := Some "https://api.trend.kimhwan.kr/api/users";
         cfg_url := Some "/avatars";
         cfg_method := Some POST;
         cfg_params := None;
         cfg_headers := None;
         cfg_data :=
           DataForm [("files", Samples.blobA); ("files", Samples.blobB)];
         retryCount := None |} ].
Proof. reflexivity. Qed.

(** ** Lemmas shared by the properties below *)

Lemma fold_append_files (name : string) (files : list Blob) (form : FormData) :
  fold_left (fun form file => FormData_append form name file) files form
  = (form ++ List.map (fun file => (name, file)) files)%list.
Proof.
  revert form.
  induction files as [| file files IH]; intros form; cbn [fold_left List.map].
  - now rewrite app_nil_r.
  - rewrite IH. unfold FormData_append. now rewrite <- app_assoc.
Qed.

Lemma appendFiles_map (name : string) (files : list Blob) :
  appendFiles name files = List.map (fun file => (name, file)) files.
Proof. unfold appendFiles. now rewrite fold_append_files. Qed.

Lemma responseRejected_normalizes (raw : Thrown) :
  responseRejected raw = Rejected (ThrownHttpApiError (normalizedError raw)).
Proof. destruct raw; reflexivity. Qed.

Lemma created_client (resourcePath : string) (w0 : World) :
  createHttpApiClient resourcePath w0
  = ({| instance :=
          {| Axios.defaults :=
               {| cfg_baseURL := Some (apiBaseUrl ++ resourcePath);
                  cfg_url := None; cfg_method := None; cfg_params := None;
                  cfg_headers := None; cfg_data := DataUndefined;
                  retryCount := None |};
             Axios.requestInterceptors :=
               [Axios.mkInterceptor requestFulfilled requestRejected];
             Axios.responseInterceptors :=
               [Axios.mkInterceptor responseFulfilled responseRejected] |} |},
     {| network := network w0;
        issued := issued w0;
        instances := S (instances w0) |}).
Proof. reflexivity. Qed.

Lemma settled_through_interceptor (answer : Promise (AxiosResponse Json)) :
  createHttpApiResponse
    (Axios.through [Axios.mkInterceptor responseFulfilled responseRejected]
       answer)
  = expectedOutcome answer.
Proof.
  destruct answer as [response | raw |]; try reflexivity.
  unfold Axios.through, createHttpApiResponse; cbn [fold_left PromiseOps.then2
    Axios.onRejected].
  now rewrite responseRejected_normalizes.
Qed.

(** Every operation of a created client issues the expected request once
    and settles as expected on the network's answer. *)
Lemma invoke_created (resourcePath : string) (w0 : World) (call : Call)
    (w : World) :
  invoke (clientFor resourcePath w0) call w
  = (expectedOutcome (network w (issued w) (expectedRequest resourcePath call)),
     recordIssued w (expectedRequest resourcePath call)).
Proof.
  unfold clientFor. rewrite created_client. cbn [fst].
  rewrite <- settled_through_interceptor.
  destruct call as [uri [?|] [?|] | uri [?|] [?|] | uri [?|] body [?|]
                   | uri [?|] body [?|] | uri [?|] body [?|]
                   | uri name files [?|] [?|]];
    cbn [invoke]; try reflexivity;
    unfold api_uploadFileRequest, AxiosHttpApiClientImpl_implements,
      uploadFileRequest;
    rewrite appendFiles_map; reflexivity.
Qed.

Lemma truthy_nonempty (s : string) : Js.truthy s = true <-> s <> "".
Proof. destruct s; cbn; split; congruence. Qed.






(** ** The normalized error and its predicates *)

(** C3. For every normalized error each of the four predicates holds
    exactly when [statusCode === ] its status (404, 401, 403, 409), and all
    four answer [false], without failing, when [statusCode] is undefined. *)
Theorem predicates_follow_statusCode (this : AxiosHttpApiErrorImpl) :
  (isNotFound this = true <-> Js.strictEq (statusCode this) 404)
  /\ (isUnauthorized this = true <-> Js.strictEq (statusCode this) 401)
  /\ (isForbidden this = true <-> Js.strictEq (statusCode this) 403)
  /\ (isConflict this = true <-> Js.strictEq (statusCode this) 409)
  /\ (statusCode this = None ->
      isNotFound this = false /\ isUnauthorized this = false
      /\ isForbidden this = false /\ isConflict this = false).
Proof.
  unfold isNotFound, isUnauthorized, isForbidden, isConflict, Js.strictEq,
    Js.looseEq.
  destruct (statusCode this) as [z |].
  - repeat split; try discriminate;
      solve [ intros H; apply Z.eqb_eq in H; congruence
            | intros H; injection H as ->; reflexivity ].
  - repeat split; discriminate.
Qed.

Lemma predicates_follow_statusCode_witness :
  isNotFound (AxiosHttpApiErrorImpl_new Samples.notFound) = true
  /\ isConflict (AxiosHttpApiErrorImpl_new Samples.networkError) = false.
Proof.
  split.
  - apply (predicates_follow_statusCode
             (AxiosHttpApiErrorImpl_new Samples.notFound)).
    reflexivity.
  - apply (predicates_follow_statusCode
             (AxiosHttpApiErrorImpl_new Samples.networkError)).
    reflexivity.
Defined.

(** C4, as stated, fails: a server message that is present but empty is
    not what [getErrorMessage] returns. *)
Lemma getErrorMessage_present_but_empty :
  let this := AxiosHttpApiErrorImpl_new Samples.emptyServerMessage in
  serverErrorMessage this = Some ""
  /\ getErrorMessage this (Some "fallback")
     = "Request failed with status code 500"
  /\ getErrorMessage this (Some "fallback") <> "".
Proof. cbn. split; [reflexivity | split; [reflexivity | discriminate]]. Qed.

(** C4, amended. For every normalized error and every fallback string,
    [getErrorMessage(fallback)] returns [serverErrorMessage] when it is
    present and not empty, otherwise the generic message when that is not
    empty, otherwise the fallback. *)
Theorem getErrorMessage_priority (this : AxiosHttpApiErrorImpl)
    (fallback : string) :
  (forall s, serverErrorMessage this = Some s -> s <> "" ->
     getErrorMessage this (Some fallback) = s)
  /\ (serverErrorMessage this = None \/ serverErrorMessage this = Some "" ->
      message this <> "" ->
      getErrorMessage this (Some fallback) = message this)
  /\ (serverErrorMessage this = None \/ serverErrorMessage this = Some "" ->
      message this = "" ->
      getErrorMessage this (Some fallback) = fallback).
Proof.
  unfold getErrorMessage.
  split; [| split].
  - intros s -> Hs. apply truthy_nonempty in Hs. cbn. now rewrite Hs.
  - intros [-> | ->] Hm; apply truthy_nonempty in Hm; cbn; now rewrite Hm.
  - intros [-> | ->] ->; reflexivity.
Qed.

Lemma getErrorMessage_priority_witness :
  getErrorMessage (AxiosHttpApiErrorImpl_new Samples.notFound)
    (Some "fallback") = "no such user"
  /\ getErrorMessage (AxiosHttpApiErrorImpl_new Samples.networkError)
       (Some "fallback") = "Network Error"
  /\ getErrorMessage (AxiosHttpApiErrorImpl_new Samples.silentFailure)
       (Some "fallback") = "fallback".
Proof.
  split; [| split].
  - apply (getErrorMessage_priority
             (AxiosHttpApiErrorImpl_new Samples.notFound) "fallback");
      [reflexivity | discriminate].
  - apply (getErrorMessage_priority
             (AxiosHttpApiErrorImpl_new Samples.networkError) "fallback");
      [left; reflexivity | discriminate].
  - apply (getErrorMessage_priority
             (AxiosHttpApiErrorImpl_new Samples.silentFailure) "fallback");
      [left; reflexivity | reflexivity].
Defined.

(** ** Calls through a client made by the factory *)

Section CreatedClient.

Variable resourcePath : string.
Variable w0 : World.
Variable call : Call.
Variable w : World.

(** What the network answers to the request of [call]. *)
Local Abbreviation answer :=
  (network w (issued w) (expectedRequest resourcePath call)).

Local Abbreviation result :=
  (fst (invoke (clientFor resourcePath w0) call w)).

(** X13. Whatever operation is called, when the transport's promise
    rejects (with a transport error that carries a response, with one that
    carries none, or with a plain error), the caller's promise rejects with
    a normalized error, not with that failure; and nothing but a normalized
    error is ever the reason the returned promise rejects with. *)
Theorem rejections_are_normalized :
  (forall raw, answer = Rejected raw ->
     exists e : AxiosHttpApiErrorImpl,
       result = Rejected (ThrownHttpApiError e)
       /\ (isRawFailure raw = true -> result <> Rejected raw))
  /\ (forall reason, result = Rejected reason ->
        exists e : AxiosHttpApiErrorImpl, reason = ThrownHttpApiError e).
Proof.
  rewrite invoke_created. cbn [fst]. split.
  - intros raw ->. exists (normalizedError raw). split; [reflexivity |].
    destruct raw; cbn; congruence.
  - intros reason H.
    destruct answer as [response | raw |]; cbn in H; try discriminate.
    injection H as <-. now exists (normalizedError raw).
Qed.

(** C2. When the transport answers with a response, the caller's promise
    resolves with exactly that response's payload; neither the success
    branch of the response interceptor nor the adapter changes it. *)
Theorem success_resolves_with_payload (response : AxiosResponse Json) :
  answer = Fulfilled response ->
  result = Fulfilled (res_data response)
  /\ responseFulfilled response = Fulfilled response
  /\ createHttpApiResponse (Fulfilled response)
     = Fulfilled (res_data response).
Proof.
  intros H. rewrite invoke_created. cbn [fst]. rewrite H.
  split; [reflexivity | split; reflexivity].
Qed.

(** C5. For every failed call the normalized error takes its status code
    and text from the response the failure carries (they are absent when
    it carries none), its server error code and message from the [name]
    and [message] of that response's body (absent when there is no body
    or no such field), and its generic message from the failure. *)
Theorem normalized_error_fields (raw : Thrown) :
  answer = Rejected raw ->
  exists e : AxiosHttpApiErrorImpl,
    result = Rejected (ThrownHttpApiError e)
    /\ message e = Thrown_message raw
    /\ match Thrown_response raw with
       | Some response =>
           statusCode e = Some (res_status response)
           /\ statusText e = Some (res_statusText response)
           /\ match res_data response with
              | Some body =>
                  serverErrorCode e = dto_name body
                  /\ serverErrorMessage e = dto_message body
              | None =>
                  serverErrorCode e = None /\ serverErrorMessage e = None
              end
       | None =>
           statusCode e = None /\ statusText e = None
           /\ serverErrorCode e = None /\ serverErrorMessage e = None
       end.
Proof.
  intros H. rewrite invoke_created. cbn [fst]. rewrite H.
  exists (normalizedError raw). split; [reflexivity |].
  split; [reflexivity |].
  destruct (Thrown_response raw) as [response |] eqn:E; cbn; rewrite E; cbn.
  - destruct (res_data response); auto.
  - auto.
Qed.

(** C6, amended. For every call that fails with a transport failure
    carrying no response, the promise rejects with a normalized error
    whose [statusCode], [statusText], [serverErrorCode] and
    [serverErrorMessage] are all undefined, and [getErrorMessage(fallback)]
    returns the transport's generic message rather than the fallback
    whenever that message is not empty. *)
Theorem no_response_failure (error : AxiosError) :
  answer = Rejected (ThrownAxiosError error) ->
  ax_response error = None ->
  exists e : AxiosHttpApiErrorImpl,
    result = Rejected (ThrownHttpApiError e)
    /\ statusCode e = None /\ statusText e = None
    /\ serverErrorCode e = None /\ serverErrorMessage e = None
    /\ (ax_message error <> "" ->
        forall fallback,
          getErrorMessage e (Some fallback) = ax_message error).
Proof.
  intros H Hnone. rewrite invoke_created. cbn [fst]. rewrite H.
  exists (normalizedError (ThrownAxiosError error)).
  split; [reflexivity |].
  unfold getErrorMessage; cbn. rewrite Hnone; cbn.
  repeat (split; [reflexivity |]).
  intros Hm fallback. apply truthy_nonempty in Hm. now rewrite Hm.
Qed.

End CreatedClient.

Lemma rejections_are_normalized_witness :
  exists e : AxiosHttpApiErrorImpl,
    fst (invoke (clientFor "users" Samples.world0)
           (CallPut "/users/1" None BodyNull None) Samples.world1)
    = Rejected (ThrownHttpApiError e).
Proof.
  destruct (rejections_are_normalized "users" Samples.world0
              (CallPut "/users/1" None BodyNull None) Samples.world1)
    as [H _].
  destruct (H (ThrownError Samples.setupFailure) eq_refl) as [e [He _]].
  exists e. exact He.
Defined.

Lemma success_resolves_with_payload_witness :
  fst (invoke (clientFor "users" Samples.world0)
         (CallGet "/users/1" None None) Samples.world1)
  = Fulfilled Samples.user1.
Proof.
  apply (success_resolves_with_payload "users" Samples.world0
           (CallGet "/users/1" None None) Samples.world1
           {| res_data := Samples.user1; res_status := 200;
              res_statusText := "OK";
              res_config :=
                Some (expectedRequest "users"
                        (CallGet "/users/1" None None)) |}).
  reflexivity.
Defined.

Lemma normalized_error_fields_witness :
  exists e : AxiosHttpApiErrorImpl,
    fst (invoke (clientFor "users" Samples.world0)
           (CallGet "/users/999" None None) Samples.world1)
    = Rejected (ThrownHttpApiError e)
    /\ message e = "Request failed with status code 404"
    /\ statusCode e = Some 404
    /\ serverErrorCode e = Some "NotFound".
Proof.
  destruct (normalized_error_fields "users" Samples.world0
              (CallGet "/users/999" None None) Samples.world1
              (ThrownAxiosError Samples.notFound) eq_refl)
    as [e [He [Hm [Hc [_ [Hn _]]]]]].
  exists e. repeat (split; [assumption |]). assumption.
Defined.

(** C6, as stated, fails: a transport failure without response whose
    message is empty makes [getErrorMessage(fallback)] return the
    fallback. *)
Lemma no_response_empty_message_falls_back :
  network Samples.world1 (issued Samples.world1)
    (expectedRequest "users" (CallPatch "/users/1" None BodyNull None))
  = Rejected (ThrownAxiosError Samples.silentFailure)
  /\ ax_response Samples.silentFailure = None
  /\ exists e : AxiosHttpApiErrorImpl,
       fst (invoke (clientFor "users" Samples.world0)
              (CallPatch "/users/1" None BodyNull None) Samples.world1)
       = Rejected (ThrownHttpApiError e)
       /\ getErrorMessage e (Some "fallback") = "fallback"
       /\ getErrorMessage e (Some "fallback")
          <> ax_message Samples.silentFailure.
Proof.
  split; [reflexivity | split; [reflexivity |]].
  eexists. split; [reflexivity |]. split; [reflexivity | discriminate].
Qed.

Lemma no_response_failure_witness :
  exists e : AxiosHttpApiErrorImpl,
    fst (invoke (clientFor "users" Samples.world0)
           (CallPost "/users" None BodyNull None) Samples.world1)
    = Rejected (ThrownHttpApiError e)
    /\ statusCode e = None
    /\ getErrorMessage e (Some "fallback") = "Network Error".
Proof.
  destruct (no_response_failure "users" Samples.world0
              (CallPost "/users" None BodyNull None) Samples.world1
              Samples.networkError eq_refl eq_refl)
    as [e [He [Hc [_ [_ [_ Hm]]]]]].
  exists e. split; [exact He | split; [exact Hc |]].
  apply Hm. discriminate.
Defined.

(** ** The response interceptor *)

(** C10. Every normalized error the response interceptor produces is named
    [HttpApiError]; a failure that is not a transport error is first
    wrapped as a transport error carrying only its message, so that the
    four status and server fields are undefined and the message is the
    failure's. *)
Theorem interceptor_names_and_rewraps (error : Thrown) :
  exists e : AxiosHttpApiErrorImpl,
    responseRejected error = Rejected (ThrownHttpApiError e)
    /\ name e = "HttpApiError"
    /\ (Axios.isAxiosError error = false ->
        e = AxiosHttpApiErrorImpl_new (AxiosError_new (Thrown_message error))
        /\ statusCode e = None /\ statusText e = None
        /\ serverErrorCode e = None /\ serverErrorMessage e = None
        /\ message e = Thrown_message error).
Proof.
  destruct error as [plain | transport | normalized]; eexists;
    (split; [reflexivity | split; [reflexivity |]]); cbn;
    solve [discriminate | intros _; repeat split].
Qed.

Lemma interceptor_names_and_rewraps_witness :
  exists e : AxiosHttpApiErrorImpl,
    responseRejected (ThrownError Samples.setupFailure)
    = Rejected (ThrownHttpApiError e)
    /\ statusCode e = None
    /\ message e = "Converting circular structure to JSON".
Proof.
  destruct (interceptor_names_and_rewraps (ThrownError Samples.setupFailure))
    as [e [He [_ H]]].
  destruct (H eq_refl) as [_ [Hc [_ [_ [_ Hm]]]]].
  exists e. split; [exact He | split; [exact Hc | exact Hm]].
Defined.

(** ** Upload *)

(** C7. An upload with field name [name] and [files] issues one transport
    request: a POST to the given uri whose body is a multipart form with
    exactly as many entries as there are files, every one under [name], in
    the order of [files]. *)
Theorem upload_builds_multipart_post (resourcePath : string) (w0 : World)
    (uri name : string) (files : list Blob) (params headers : Mapping)
    (w : World) :
  exists (form : FormData) (request : AxiosRequestConfig),
    issued (snd (uploadFileRequest (clientFor resourcePath w0) uri name files
                   params headers w))
    = (issued w ++ [request])%list
    /\ cfg_method request = Some POST
    /\ cfg_url request = Some uri
    /\ cfg_data request = DataForm form
    /\ form = appendFiles name files
    /\ length form = length files
    /\ Forall (fun entry => fst entry = name) form
    /\ List.map snd form = files.
Proof.
  exists (List.map (fun file => (name, file)) files),
    (expectedRequest resourcePath (CallUpload uri name files params headers)).
  change (uploadFileRequest (clientFor resourcePath w0) uri name files params
            headers w)
    with (invoke (clientFor resourcePath w0)
            (CallUpload uri name files params headers) w).
  rewrite invoke_created, appendFiles_map. cbn [snd recordIssued issued].
  repeat (split; [reflexivity |]).
  split; [apply length_map |].
  split.
  - apply Forall_forall. intros entry Hin.
    apply in_map_iff in Hin. destruct Hin as [file [<- _]]. reflexivity.
  - rewrite map_map. cbn [snd]. apply map_id.
Qed.

(** ** No retry *)

(** C8. No operation retries. Whatever the network answers, an invocation
    issues exactly one transport request and creates no transport instance;
    the request carries no retry count; the configuration kept in the
    normalized error is the one the failure carried, retry count included;
    and [getCustomAxiosRequestConfig], the only code that touches the retry
    count, leaves a count that is there as it is and sets a missing one to
    zero. *)
Theorem operations_never_retry (resourcePath : string) (w0 : World)
    (call : Call) (w : World) :
  let after := snd (invoke (clientFor resourcePath w0) call w) in
  issued after = (issued w ++ [expectedRequest resourcePath call])%list
  /\ length (issued after) = S (length (issued w))
  /\ instances after = instances w
  /\ retryCount (expectedRequest resourcePath call) = None
  /\ (forall raw,
        network w (issued w) (expectedRequest resourcePath call)
        = Rejected raw ->
        exists e : AxiosHttpApiErrorImpl,
          fst (invoke (clientFor resourcePath w0) call w)
          = Rejected (ThrownHttpApiError e)
          /\ config e = Thrown_config raw)
  /\ (forall (e e' : AxiosHttpApiErrorImpl) (c : AxiosRequestConfig),
        getCustomAxiosRequestConfig e = inr (e', c) ->
        exists stored : AxiosRequestConfig,
          config e = Some stored
          /\ config e' = Some c
          /\ retryCount c
             = Some match retryCount stored with
                    | Some n => n
                    | None => 0%nat
                    end).
Proof.
  rewrite invoke_created. cbn [fst snd recordIssued issued instances].
  split; [reflexivity |].
  split; [rewrite length_app, Nat.add_comm; reflexivity |].
  split; [reflexivity |].
  split; [reflexivity |].
  split.
  - intros raw ->. exists (normalizedError raw). split; reflexivity.
  - intros e e' c H. unfold getCustomAxiosRequestConfig in H.
    destruct (config e) as [stored |]; [| discriminate].
    injection H as <- <-. exists stored.
    split; [reflexivity | split; [reflexivity |]].
    cbn. destruct (retryCount stored); reflexivity.
Qed.

Lemma operations_never_retry_witness :
  exists e : AxiosHttpApiErrorImpl,
    fst (invoke (clientFor "users" Samples.world0)
           (CallPost "/users" None BodyNull None) Samples.world1)
    = Rejected (ThrownHttpApiError e)
    /\ config e = None.
Proof.
  destruct (operations_never_retry "users" Samples.world0
              (CallPost "/users" None BodyNull None) Samples.world1)
    as [_ [_ [_ [_ [H _]]]]].
  exact (H (ThrownAxiosError Samples.networkError) eq_refl).
Defined.

(** ** The factory *)




(** ** Further properties of the operations *)

(** X1. Each operation hands the transport its uri, params and headers as
    they were given, under the method of the operation: GET and DELETE
    without a body, POST, PUT and PATCH with the request model, the upload
    as a POST. *)
Theorem request_carries_arguments (resourcePath : string) (w0 : World)
    (uri : string) (params headers : Mapping) (requestModel : Body)
    (w : World) :
  let client := clientFor resourcePath w0 in
  let sent (method : Method) (data : RequestData) :=
    (issued w ++
     [ {| cfg_baseURL := Some (apiBaseUrl ++ resourcePath)%string;
          cfg_url := Some uri;
          cfg_method := Some method;
          cfg_params := params;
          cfg_headers := headers;
          cfg_data := data;
          retryCount := None |} ])%list in
  issued (snd (getRequest client uri params headers w))
  = sent GET DataUndefined
  /\ issued (snd (deleteRequest client uri params headers w))
     = sent DELETE DataUndefined
  /\ issued (snd (postRequest client uri params requestModel headers w))
     = sent POST (bodyData requestModel)
  /\ issued (snd (putRequest client uri params requestModel headers w))
     = sent PUT (bodyData requestModel)
  /\ issued (snd (patchRequest client uri params requestModel headers w))
     = sent PATCH (bodyData requestModel).
Proof.
  intros client sent. subst client sent.
  pose proof (invoke_created resourcePath w0) as H.
  split; [exact (f_equal (fun r => issued (snd r))
                   (H (CallGet uri params headers) w)) |].
  split; [exact (f_equal (fun r => issued (snd r))
                   (H (CallDelete uri params headers) w)) |].
  split; [exact (f_equal (fun r => issued (snd r))
                   (H (CallPost uri params requestModel headers) w)) |].
  split; [exact (f_equal (fun r => issued (snd r))
                   (H (CallPut uri params requestModel headers) w)) |].
  exact (f_equal (fun r => issued (snd r))
           (H (CallPatch uri params requestModel headers) w)).
Qed.

(** X2. The request model can be read back from the request a POST, PUT or
    PATCH issues: an omitted model, [null] and a transfer object are never
    sent as the same body. *)
Theorem request_model_is_recoverable (resourcePath : string) (w0 : World)
    (uri : string) (params headers : Mapping) (model1 model2 : Body)
    (w : World) :
  let client := clientFor resourcePath w0 in
  (issued (snd (postRequest client uri params model1 headers w))
   = issued (snd (postRequest client uri params model2 headers w))
   -> model1 = model2)
  /\ (issued (snd (putRequest client uri params model1 headers w))
      = issued (snd (putRequest client uri params model2 headers w))
      -> model1 = model2)
  /\ (issued (snd (patchRequest client uri params model1 headers w))
      = issued (snd (patchRequest client uri params model2 headers w))
      -> model1 = model2).
Proof.
  intros client. subst client.
  pose proof (invoke_created resourcePath w0) as H.
  split; [| split]; intros E.
  - change (postRequest ?c ?u ?p ?b ?h ?w)
      with (invoke c (CallPost u p b h) w) in E.
    rewrite !H in E. apply app_inv_head in E. injection E as E.
    destruct model1, model2; cbn in E; congruence.
  - change (putRequest ?c ?u ?p ?b ?h ?w)
      with (invoke c (CallPut u p b h) w) in E.
    rewrite !H in E. apply app_inv_head in E. injection E as E.
    destruct model1, model2; cbn in E; congruence.
  - change (patchRequest ?c ?u ?p ?b ?h ?w)
      with (invoke c (CallPatch u p b h) w) in E.
    rewrite !H in E. apply app_inv_head in E. injection E as E.
    destruct model1, model2; cbn in E; congruence.
Qed.

Lemma request_model_is_recoverable_witness :
  issued (snd (putRequest (clientFor "users" Samples.world0) "/users/1" None
                 (BodyModel Samples.user1) None Samples.world1))
  = issued (snd (putRequest (clientFor "users" Samples.world0) "/users/1"
                   None (BodyModel Samples.user1) None Samples.world1))
  /\ BodyModel Samples.user1 = BodyModel Samples.user1
  /\ issued (snd (postRequest (clientFor "users" Samples.world0) "/users"
                    None BodyNull None Samples.world1))
     <> issued (snd (postRequest (clientFor "users" Samples.world0) "/users"
                       None BodyOmitted None Samples.world1)).
Proof.
  split; [reflexivity |]. split.
  - apply (request_model_is_recoverable "users" Samples.world0 "/users/1"
             None None (BodyModel Samples.user1) (BodyModel Samples.user1)
             Samples.world1).
    reflexivity.
  - intros E.
    pose proof (proj1 (request_model_is_recoverable "users" Samples.world0
                         "/users" None None BodyNull BodyOmitted
                         Samples.world1) E) as H.
    discriminate H.
Defined.

(** X3. The caller's promise settles the way the transport's does: it
    resolves exactly when the transport answered with a response, rejects
    exactly when the transport failed, and stays pending exactly when the
    transport never settles. No failure is swallowed, no success turned
    into a failure, and the adapter adds no waiting of its own. *)
Theorem promise_settles_as_transport (resourcePath : string) (w0 : World)
    (call : Call) (w : World) :
  let answer := network w (issued w) (expectedRequest resourcePath call) in
  let result := fst (invoke (clientFor resourcePath w0) call w) in
  ((exists payload, result = Fulfilled payload)
   <-> (exists response, answer = Fulfilled response))
  /\ ((exists reason, result = Rejected reason)
      <-> (exists raw, answer = Rejected raw))
  /\ (result = Pending <-> answer = Pending).
Proof.
  intros answer result. subst result. rewrite invoke_created. cbn [fst].
  fold answer. destruct answer as [response | raw |]; cbn [expectedOutcome].
  - split; [| split]; split; intros H; try discriminate;
      try (destruct H as [x H]; discriminate); eauto.
  - split; [| split]; split; intros H; try discriminate;
      try (destruct H as [x H]; discriminate); eauto.
  - split; [| split]; split; intros H; try reflexivity;
      destruct H as [x H]; discriminate.
Qed.

Lemma promise_settles_as_transport_witness :
  fst (invoke (clientFor "users" Samples.world0)
         (CallDelete "/users/1" None None) Samples.world1)
  = Pending.
Proof.
  apply (promise_settles_as_transport "users" Samples.world0
           (CallDelete "/users/1" None None) Samples.world1).
  reflexivity.
Defined.

(** X4. The operations themselves normalize nothing: through a client
    whose transport instance has no interceptors, a failure reaches the
    caller as the transport raised it. The normalized rejections of a
    factory-made client are the work of [setInterceptors] alone. *)
Theorem bare_instance_leaks_raw_failure (this : AxiosHttpApiClientImpl)
    (call : Call) (w : World) (raw : Thrown) :
  Axios.requestInterceptors (instance this) = [] ->
  Axios.responseInterceptors (instance this) = [] ->
  (forall history request, network w history request = Rejected raw) ->
  fst (invoke this call w) = Rejected raw.
Proof.
  intros Hreq Hres Hnet. destruct this as [inst]. cbn [instance] in *.
  destruct call; cbn [invoke api_getRequest api_deleteRequest api_postRequest
    api_putRequest api_patchRequest api_uploadFileRequest
    AxiosHttpApiClientImpl_implements];
    unfold getRequest, deleteRequest, postRequest, putRequest, patchRequest,
      uploadFileRequest, Axios.get, Axios.delete, Axios.post, Axios.put,
      Axios.patch, Axios.withoutData, Axios.withData, Axios.request, bind;
    cbn [instance]; rewrite Hreq, Hres; cbn; rewrite Hnet; reflexivity.
Qed.

Lemma bare_instance_leaks_raw_failure_witness :
  fst (invoke Samples.bareClient (CallGet "/users/1" None None)
         Samples.offlineWorld)
  = Rejected (ThrownAxiosError Samples.networkError).
Proof.
  apply bare_instance_leaks_raw_failure; reflexivity.
Defined.

(** X5. Calls made one after the other on one client issue one request
    each, in the order of the calls; every one of them is bound to the base
    address the client was made for and carries no retry count; the calls
    create no transport instance and give back one promise per call. *)
Theorem calls_in_a_row (resourcePath : string) (w0 : World)
    (calls : list Call) (w : World) :
  let run := invokeAll (clientFor resourcePath w0) calls w in
  issued (snd run)
  = (issued w ++ List.map (expectedRequest resourcePath) calls)%list
  /\ length (fst run) = length calls
  /\ instances (snd run) = instances w
  /\ Forall (fun request =>
               cfg_baseURL request = Some (apiBaseUrl ++ resourcePath)
               /\ retryCount request = None)
       (skipn (length (issued w)) (issued (snd run))).
Proof.
  cbv zeta.
  set (client := clientFor resourcePath w0).
  assert (Hrun :
            issued (snd (invokeAll client calls w))
            = (issued w ++ List.map (expectedRequest resourcePath) calls)%list
            /\ length (fst (invokeAll client calls w)) = length calls
            /\ instances (snd (invokeAll client calls w)) = instances w).
  { revert w. induction calls as [| call rest IH]; intros w.
    - cbn. now rewrite app_nil_r.
    - cbn [invokeAll]. unfold bind. subst client. rewrite invoke_created.
      specialize (IH (recordIssued w (expectedRequest resourcePath call))).
      destruct (invokeAll (clientFor resourcePath w0) rest
                  (recordIssued w (expectedRequest resourcePath call)))
        as [promises after].
      cbn [fst snd ret] in *. destruct IH as [Hi [Hl Hn]].
      cbn [length List.map]. rewrite Hi, Hl, Hn.
      cbn [recordIssued issued instances]. rewrite <- app_assoc.
      repeat split. }
  destruct Hrun as [Hi [Hl Hn]].
  repeat (split; [assumption |]).
  rewrite Hi, skipn_app, skipn_all, Nat.sub_diag. cbn [skipn app].
  apply Forall_forall. intros request Hin.
  apply in_map_iff in Hin. destruct Hin as [call [<- _]]. split; reflexivity.
Qed.

(** X6. At most one of the four predicates holds of a normalized error. *)
Theorem predicates_exclude_each_other (this : AxiosHttpApiErrorImpl) :
  (length (filter (fun holds : bool => holds)
             [isUnauthorized this; isForbidden this; isNotFound this;
              isConflict this]) <= 1)%nat.
Proof.
  unfold isUnauthorized, isForbidden, isNotFound, isConflict, Js.looseEq.
  destruct (statusCode this) as [z |]; cbn; [| lia].
  destruct (Z.eqb_spec z 401), (Z.eqb_spec z 403), (Z.eqb_spec z 404),
    (Z.eqb_spec z 409); cbn; lia.
Qed.

(** X7. When a call fails with a response, the predicates of the
    normalized error tell the status of that response: each holds exactly
    when the status is its number. *)
Theorem predicates_tell_response_status (resourcePath : string) (w0 : World)
    (call : Call) (w : World) (error : AxiosError)
    (response : AxiosResponse (option ErrorResponseDto)) :
  network w (issued w) (expectedRequest resourcePath call)
  = Rejected (ThrownAxiosError error) ->
  ax_response error = Some response ->
  exists e : AxiosHttpApiErrorImpl,
    fst (invoke (clientFor resourcePath w0) call w)
    = Rejected (ThrownHttpApiError e)
    /\ isUnauthorized e = (res_status response =? 401)
    /\ isForbidden e = (res_status response =? 403)
    /\ isNotFound e = (res_status response =? 404)
    /\ isConflict e = (res_status response =? 409).
Proof.
  intros H Hr. rewrite invoke_created. cbn [fst]. rewrite H.
  eexists. split; [reflexivity |].
  unfold isUnauthorized, isForbidden, isNotFound, isConflict.
  cbn. rewrite Hr. cbn. repeat split.
Qed.

Lemma predicates_tell_response_status_witness :
  exists e : AxiosHttpApiErrorImpl,
    fst (invoke (clientFor "users" Samples.world0)
           (CallGet "/users/999" None None) Samples.world1)
    = Rejected (ThrownHttpApiError e)
    /\ isNotFound e = true /\ isConflict e = false.
Proof.
  destruct (predicates_tell_response_status "users" Samples.world0
              (CallGet "/users/999" None None) Samples.world1
              Samples.notFound
              {| res_data :=
                   Some {| dto_name := Some "NotFound";
                           dto_message := Some "no such user" |};
                 res_status := 404;
                 res_statusText := "Not Found";
                 res_config := None |} eq_refl eq_refl)
    as [e [He [_ [_ [Hn Hc]]]]].
  exists e. split; [exact He | split; [exact Hn | exact Hc]].
Defined.

(** X8. When a call fails with a response whose body carries a message
    that is not empty, [getErrorMessage] returns that message, whatever the
    transport's own message is and whether or not a fallback is given. *)
Theorem server_message_wins (resourcePath : string) (w0 : World)
    (call : Call) (w : World) (error : AxiosError)
    (response : AxiosResponse (option ErrorResponseDto))
    (body : ErrorResponseDto) (serverMessage : string) :
  network w (issued w) (expectedRequest resourcePath call)
  = Rejected (ThrownAxiosError error) ->
  ax_response error = Some response ->
  res_data response = Some body ->
  dto_message body = Some serverMessage ->
  serverMessage <> "" ->
  exists e : AxiosHttpApiErrorImpl,
    fst (invoke (clientFor resourcePath w0) call w)
    = Rejected (ThrownHttpApiError e)
    /\ forall arg : option string, getErrorMessage e arg = serverMessage.
Proof.
  intros H Hr Hb Hm Hne. rewrite invoke_created. cbn [fst]. rewrite H.
  eexists. split; [reflexivity |].
  intros arg. unfold getErrorMessage. cbn. rewrite Hr. cbn. rewrite Hb. cbn.
  rewrite Hm. cbn. apply truthy_nonempty in Hne. now rewrite Hne.
Qed.

Lemma server_message_wins_witness :
  exists e : AxiosHttpApiErrorImpl,
    fst (invoke (clientFor "users" Samples.world0)
           (CallGet "/users/999" None None) Samples.world1)
    = Rejected (ThrownHttpApiError e)
    /\ getErrorMessage e None = "no such user".
Proof.
  destruct (server_message_wins "users" Samples.world0
              (CallGet "/users/999" None None) Samples.world1
              Samples.notFound
              {| res_data :=
                   Some {| dto_name := Some "NotFound";
                           dto_message := Some "no such user" |};
                 res_status := 404;
                 res_statusText := "Not Found";
                 res_config := None |}
              {| dto_name := Some "NotFound";
                 dto_message := Some "no such user" |}
              "no such user" eq_refl eq_refl eq_refl eq_refl)
    as [e [He Hm]]; [discriminate |].
  exists e. split; [exact He | apply Hm].
Defined.

(** X9. [getErrorMessage] gives a text to show unless it is handed an
    empty fallback: called without argument, or with a fallback that is not
    empty, it never returns the empty string. *)
Theorem getErrorMessage_not_empty (this : AxiosHttpApiErrorImpl)
    (arg : option string) :
  arg <> Some "" -> getErrorMessage this arg <> "".
Proof.
  intros Harg. unfold getErrorMessage.
  destruct (serverErrorMessage this) as [[| c s] |]; cbn;
    try discriminate;
    (destruct (message this) as [| c' m]; cbn; [| discriminate];
     destruct arg as [[| c'' f] |]; [congruence | discriminate | discriminate]).
Qed.

Lemma getErrorMessage_not_empty_witness :
  getErrorMessage (AxiosHttpApiErrorImpl_new Samples.silentFailure) None
  <> "".
Proof.
  apply getErrorMessage_not_empty. discriminate.
Defined.

(** ** The stored request configuration *)

(** X10. After a call that failed with something other than a transport
    error, the normalized error holds no request configuration, and
    [getCustomAxiosRequestConfig] raises a [TypeError] instead of returning
    one. *)
Theorem no_retry_config_after_plain_failure (resourcePath : string)
    (w0 : World) (call : Call) (w : World) (raw : Thrown) :
  network w (issued w) (expectedRequest resourcePath call) = Rejected raw ->
  Axios.isAxiosError raw = false ->
  exists (e : AxiosHttpApiErrorImpl) (raised : Js.Error),
    fst (invoke (clientFor resourcePath w0) call w)
    = Rejected (ThrownHttpApiError e)
    /\ config e = None
    /\ getCustomAxiosRequestConfig e = inl raised
    /\ Js.error_name raised = "TypeError".
Proof.
  intros H Hplain. rewrite invoke_created. cbn [fst]. rewrite H.
  destruct raw as [plain | transport | normalized];
    [| discriminate Hplain |]; do 2 eexists;
    (split; [reflexivity | split; [reflexivity | split; reflexivity]]).
Qed.

Lemma no_retry_config_after_plain_failure_witness :
  exists (e : AxiosHttpApiErrorImpl) (raised : Js.Error),
    fst (invoke (clientFor "users" Samples.world0)
           (CallPut "/users/1" None BodyNull None) Samples.world1)
    = Rejected (ThrownHttpApiError e)
    /\ getCustomAxiosRequestConfig e = inl raised.
Proof.
  destruct (no_retry_config_after_plain_failure "users" Samples.world0
              (CallPut "/users/1" None BodyNull None) Samples.world1
              (ThrownError Samples.setupFailure) eq_refl eq_refl)
    as [e [raised [He [_ [Hg _]]]]].
  exists e, raised. split; [exact He | exact Hg].
Defined.

(** X11. [getCustomAxiosRequestConfig] raises exactly when the error holds
    no configuration. When it returns, it has changed nothing a caller of
    the [HttpApiError] interface can see and nothing of the configuration
    but a missing retry count; and asking again returns the same
    configuration and leaves the error as it is. *)
Theorem getCustomAxiosRequestConfig_settles (this : AxiosHttpApiErrorImpl) :
  ((exists raised, getCustomAxiosRequestConfig this = inl raised)
   <-> config this = None)
  /\ (forall (this' : AxiosHttpApiErrorImpl) (c : AxiosRequestConfig),
        getCustomAxiosRequestConfig this = inr (this', c) ->
        getCustomAxiosRequestConfig this' = inr (this', c)
        /\ statusCode this' = statusCode this
        /\ statusText this' = statusText this
        /\ serverErrorCode this' = serverErrorCode this
        /\ serverErrorMessage this' = serverErrorMessage this
        /\ message this' = message this
        /\ name this' = name this
        /\ (forall arg, getErrorMessage this' arg = getErrorMessage this arg)
        /\ exists stored : AxiosRequestConfig,
             config this = Some stored
             /\ cfg_baseURL c = cfg_baseURL stored
             /\ cfg_url c = cfg_url stored
             /\ cfg_method c = cfg_method stored
             /\ cfg_params c = cfg_params stored
             /\ cfg_headers c = cfg_headers stored
             /\ cfg_data c = cfg_data stored
             /\ (forall n, retryCount stored = Some n -> c = stored)).
Proof.
  unfold getCustomAxiosRequestConfig.
  destruct (config this) as [stored |] eqn:E.
  - split.
    + split; [intros [raised H]; discriminate | discriminate].
    + intros this' c H. injection H as <- <-. cbn.
      split; [destruct (retryCount stored); reflexivity |].
      repeat (split; [reflexivity |]).
      exists stored. repeat (split; [reflexivity |]).
      intros n Hn. rewrite Hn. destruct stored; cbn in *. now subst.
  - split.
    + split; [reflexivity | intros _; eexists; reflexivity].
    + intros this' c H. discriminate.
Qed.

Lemma getCustomAxiosRequestConfig_settles_witness :
  exists (e : AxiosHttpApiErrorImpl) (c : AxiosRequestConfig),
    getCustomAxiosRequestConfig (AxiosHttpApiErrorImpl_new Samples.timedOut)
    = inr (e, c)
    /\ getCustomAxiosRequestConfig e = inr (e, c)
    /\ message e = "timeout of 1000ms exceeded".
Proof.
  destruct (getCustomAxiosRequestConfig
              (AxiosHttpApiErrorImpl_new Samples.timedOut))
    as [raised | [e c]] eqn:E; [discriminate E |].
  exists e, c. split; [reflexivity |].
  destruct (proj2 (getCustomAxiosRequestConfig_settles
                     (AxiosHttpApiErrorImpl_new Samples.timedOut)) e c E)
    as [Hagain [_ [_ [_ [_ [Hm _]]]]]].
  split; [exact Hagain | exact Hm].
Defined.

(** ** Upload, further *)

(** X12. The form of an upload is built file by file: uploading two
    batches of files as one list sends, under the field name, an entry for
    each file of the first batch followed by an entry for each file of the
    second, and an upload without files still issues its POST, with a form
    that has no entry. *)
Theorem upload_form_is_built_in_order (resourcePath : string) (w0 : World)
    (uri name : string) (batch1 batch2 : list Blob)
    (params headers : Mapping) (w : World) :
  let client := clientFor resourcePath w0 in
  let sent (form : FormData) :=
    (issued w ++
     [ {| cfg_baseURL := Some (apiBaseUrl ++ resourcePath)%string;
          cfg_url := Some uri;
          cfg_method := Some POST;
          cfg_params := params;
          cfg_headers := headers;
          cfg_data := DataForm form;
          retryCount := None |} ])%list in
  issued (snd (uploadFileRequest client uri name (batch1 ++ batch2) params
                 headers w))
  = sent (List.map (fun file => (name, file)) batch1
          ++ List.map (fun file => (name, file)) batch2)%list
  /\ issued (snd (uploadFileRequest client uri name [] params headers w))
     = sent [].
Proof.
  cbv zeta.
  pose proof (invoke_created resourcePath w0) as H.
  split.
  - rewrite <- map_app.
    exact (f_equal (fun r => issued (snd r))
             (H (CallUpload uri name (batch1 ++ batch2) params headers) w)).
  - exact (f_equal (fun r => issued (snd r))
             (H (CallUpload uri name [] params headers) w)).
Qed.
